(** * BackgroundServiceView: the background-service event log panel

    A shallow embedding of [front_end/resources/BackgroundServiceView.js]:
    the view controller ([Resources.BackgroundServiceView]) and the row
    detail adapter ([Resources.BackgroundServiceView.EventDataNode]),
    followed by the properties of the event filter, the table rebuild,
    the row construction, the recording toggle and the metadata popover. *)

From Stdlib Require Import ZArith Ascii String List Lia.
From Stdlib Require Import Floats.PrimFloat.
From stdpp Require Import base option list gmap strings.
Import ListNotations.

Local Open Scope string_scope.

(** ** The JavaScript built-ins the view relies on *)

Module JS.

(** [String.prototype.substr(start, length)] on integer arguments.  A
    negative [start] counts from the end, [length] is clamped to
    [0 .. size], an omitted [length] ([None]) reaches to the end of the
    string, and an empty range yields the empty string. *)
Definition substr (s : string) (start : Z) (len : option Z) : string :=
  let size := Z.of_nat (String.length s) in
  let intStart :=
    if (start <? 0)%Z then Z.max (size + start) 0 else Z.min start size in
  let intLength :=
    match len with
    | None => size
    | Some l => Z.min (Z.max l 0) size
    end in
  let intEnd := Z.min (intStart + intLength) size in
  if (intEnd <=? intStart)%Z then ""
  else String.substring (Z.to_nat intStart) (Z.to_nat (intEnd - intStart)) s.

(** [Array.prototype.includes] on an array of strings: some element is
    the same string as [x]. *)
Definition includes (l : list string) (x : string) : bool :=
  existsb (String.eqb x) l.

(** The [length] property of a string, as a JavaScript integer. *)
Definition length (s : string) : Z := Z.of_nat (String.length s).

End JS.

(** ** Plain string operations used to phrase the properties *)

(** [s] without its last character; the empty string stays empty. *)
Fixpoint drop_last (s : string) : string :=
  match s with
  | EmptyString => EmptyString
  | String c EmptyString => EmptyString
  | String c s' => String c (drop_last s')
  end.

(** [s] without its first [k] characters; nothing is left when [s] has
    at most [k] of them. *)
Fixpoint drop_first (k : nat) (s : string) : string :=
  match k, s with
  | O, _ => s
  | S _, EmptyString => EmptyString
  | S k', String _ s' => drop_first k' s'
  end.

(** ** Protocol data delivered by the model *)

Module Protocol.

(** [Protocol.BackgroundService.EventMetadata]. *)
Record EventMetadata := {
  key : string;
  value : string;
}.

(** [Protocol.BackgroundService.BackgroundServiceEvent].  The timestamp is
    a JavaScript number (seconds since the epoch); the registration id is
    [None] when the event carries none. *)
Record BackgroundServiceEvent := {
  timestamp : float;
  origin : string;
  serviceWorkerRegistrationId : option string;
  service : string;
  eventName : string;
  instanceId : string;
  eventMetadata : list EventMetadata;
}.

End Protocol.

(** ** Collaborators: the model, the service-worker registry and the
    security-origin tracker *)

Module SDK.

(** [SDK.ServiceWorkerVersion], the two fields the view reads. *)
Record ServiceWorkerVersion := {
  scriptURL : string;
  securityOrigin : string;
}.

(** [SDK.ServiceWorkerRegistration]: [versions] lists the values of the
    registration's version map in iteration order, so its head is what
    [versions.values().next().value] yields. *)
Record ServiceWorkerRegistration := {
  versions : list ServiceWorkerVersion;
}.

End SDK.

(** [Resources.BackgroundServiceModel.RecordingState]. *)
Record RecordingState := {
  serviceName : string;
  isRecording : bool;
}.

(** What the view reads from its collaborators while one handler runs:
    [this._model.getEvents], [this._serviceWorkerManager.registrations()]
    and [this._securityOriginManager.securityOrigins()]. *)
Record Env := {
  getEvents : string -> list Protocol.BackgroundServiceEvent;
  registrations : gmap string SDK.ServiceWorkerRegistration;
  securityOrigins : list string;
}.

(** The requests the view sends to the model. *)
Inductive ModelCall :=
| Enable (service : string)
| SetRecording (recording : bool) (service : string)
| GetEvents (service : string)
| ClearEvents (service : string).

(** ** Toolkit widgets *)

Module UI.

(** [UI.ToolbarToggle]: the record button. *)
Record ToolbarToggle := { toggled : bool }.

Definition setToggled (b : bool) (_ : ToolbarToggle) : ToolbarToggle :=
  {| toggled := b |}.

(** [UI.ToolbarCheckbox]: the "Show events from other domains" box. *)
Record ToolbarCheckbox := { checked : bool }.

End UI.

(** ** A small DOM *)

Module DOM.

(** A node is a text node or an element with a tag, a class and its
    child nodes in document order. *)
#[warnings="-register-all"]
Inductive Node :=
| Text (data : string)
| Elem (tagName className : string) (childNodes : list Node).

(** Getter of [node.textContent]: the text of all descendants, in
    document order. *)
Fixpoint textContent (n : Node) : string :=
  match n with
  | Text s => s
  | Elem _ _ cs =>
      (fix texts (l : list Node) : string :=
         match l with
         | [] => ""
         | c :: l' => textContent c ++ texts l'
         end) cs
  end.

(** Setter of [node.textContent]: the children are replaced by one text
    node, or by nothing when the string is empty. *)
Definition set_textContent (s : string) (n : Node) : Node :=
  match n with
  | Text _ => Text s
  | Elem t c _ => Elem t c (if String.eqb s "" then [] else [Text s])
  end.

(** [parent.appendChild(child)] for a child that has no parent yet. *)
Definition appendChild (child : Node) (parent : Node) : Node :=
  match parent with
  | Text s => Text s
  | Elem t c cs => Elem t c (cs ++ [child])
  end.

Definition children (n : Node) : list Node :=
  match n with
  | Text _ => []
  | Elem _ _ cs => cs
  end.

Definition hasClass (cls : string) (n : Node) : bool :=
  match n with
  | Text _ => false
  | Elem _ c _ => String.eqb c cls
  end.

(** Element construction is counted: a computation threads the number
    of elements created so far. *)
Definition M (A : Type) : Type := nat -> A * nat.

Definition ret {A} (a : A) : M A := fun n => (a, n).

Definition bind {A B} (m : M A) (k : A -> M B) : M B :=
  fun n => let (a, n') := m n in k a n'.

(** [createElementWithClass(tag, cls)]. *)
Definition createElementWithClass (tag cls : string) : M Node :=
  fun n => (Elem tag cls [], S n).

(** A [for (const x of xs)] loop that threads an accumulator. *)
Fixpoint forOf {A B} (xs : list A) (body : B -> A -> M B) (acc : B) : M B :=
  match xs with
  | [] => ret acc
  | x :: xs' => bind (body acc x) (forOf xs' body)
  end.

End DOM.

Notation "'let*' x ':=' m 'in' k" := (DOM.bind m (fun x => k))
  (at level 10, x name, m at level 100, k at level 200).

(** ** The view *)

Module EventData.

(** [Resources.BackgroundServiceView.EventData]: one table row. *)
Record t := {
  id : nat;
  timestamp : string;
  origin : string;
  swSource : string;
  eventName : string;
  instanceId : string;
}.

End EventData.

(** The row data as the JavaScript object it is: its property names, in
    the order of the object literal, each with its value. *)
Inductive Value :=
| Num (n : nat)
| Str (s : string).

Definition properties (d : EventData.t) : list (string * Value) :=
  [ ("id", Num (EventData.id d));
    ("timestamp", Str (EventData.timestamp d));
    ("origin", Str (EventData.origin d));
    ("swSource", Str (EventData.swSource d));
    ("eventName", Str (EventData.eventName d));
    ("instanceId", Str (EventData.instanceId d)) ].

(** [data[name]]: [None] stands for [undefined]. *)
Definition property (name : string) (d : EventData.t) : option Value :=
  snd <$> List.find (fun p => String.eqb (fst p) name) (properties d).

Module DataGrid.

(** [DataGrid.DataGrid.ColumnDescriptor], the fields the view sets. *)
Record ColumnDescriptor := {
  id : string;
  title : string;
  weight : nat;
}.

(** A data grid as [_createDataGrid] leaves it: its columns and whether
    it is striped. *)
Record t := {
  columns : list ColumnDescriptor;
  striped : bool;
}.

End DataGrid.

(** [UI.PopoverRequest]: the anchor box and the [show] callback, which
    receives the popover's content element and returns it filled in
    together with the value its promise resolves to. *)
Record AnchorBox := { x : Z; y : Z; width : Z; height : Z }.

Record PopoverRequest := {
  box : AnchorBox;
  show : DOM.Node -> DOM.Node * bool;
}.

(** The DOM event that triggers a popover: its [type] and the window box
    of its target, [event.target.boxInWindow()]. *)
Record Event := {
  type : string;
  target_boxInWindow : AnchorBox;
}.

(** [Resources.BackgroundServiceView.EventDataNode]. *)
Record EventDataNode := {
  data : EventData.t;
  _eventMetadata : list Protocol.EventMetadata;
}.

(** [Resources.BackgroundServiceView]: the bound service name, the two
    toolbar controls the handlers read, the children of the data grid's
    root node, and the requests sent to the model so far (oldest first). *)
Record View := {
  _serviceName : string;
  _recordButton : UI.ToolbarToggle;
  _originCheckbox : UI.ToolbarCheckbox;
  _dataGrid : list EventDataNode;
  _model : list ModelCall;
}.

Definition with_recordButton (b : UI.ToolbarToggle) (v : View) : View :=
  {| _serviceName := _serviceName v; _recordButton := b;
     _originCheckbox := _originCheckbox v; _dataGrid := _dataGrid v;
     _model := _model v |}.

Definition with_dataGrid (rows : list EventDataNode) (v : View) : View :=
  {| _serviceName := _serviceName v; _recordButton := _recordButton v;
     _originCheckbox := _originCheckbox v; _dataGrid := rows;
     _model := _model v |}.

Definition with_originCheckbox (b : UI.ToolbarCheckbox) (v : View) : View :=
  {| _serviceName := _serviceName v; _recordButton := _recordButton v;
     _originCheckbox := b; _dataGrid := _dataGrid v;
     _model := _model v |}.

(** Sending a request to the model. *)
Definition call (c : ModelCall) (v : View) : View :=
  {| _serviceName := _serviceName v; _recordButton := _recordButton v;
     _originCheckbox := _originCheckbox v; _dataGrid := _dataGrid v;
     _model := _model v ++ [c] |}.

(** ** Sample data *)

Module Sample.

Definition push_a : Protocol.BackgroundServiceEvent :=
  {| Protocol.timestamp := 1.5%float;
     Protocol.origin := "https://a.com/";
     Protocol.serviceWorkerRegistrationId := Some "7";
     Protocol.service := "push";
     Protocol.eventName := "push-received";
     Protocol.instanceId := "1";
     Protocol.eventMetadata :=
       [ {| Protocol.key := "Payload"; Protocol.value := "hello" |};
         {| Protocol.key := "Tag"; Protocol.value := "" |} ] |}.

Definition push_b : Protocol.BackgroundServiceEvent :=
  {| Protocol.timestamp := 2%float;
     Protocol.origin := "https://b.com/";
     Protocol.serviceWorkerRegistrationId := Some "8";
     Protocol.service := "push";
     Protocol.eventName := "push-received";
     Protocol.instanceId := "2";
     Protocol.eventMetadata := [] |}.

Definition sync_a : Protocol.BackgroundServiceEvent :=
  {| Protocol.timestamp := 3%float;
     Protocol.origin := "https://a.com/";
     Protocol.serviceWorkerRegistrationId := None;
     Protocol.service := "sync";
     Protocol.eventName := "sync-registered";
     Protocol.instanceId := "3";
     Protocol.eventMetadata := [] |}.

(** An event whose origin is a single character. *)
Definition push_short : Protocol.BackgroundServiceEvent :=
  {| Protocol.timestamp := 4%float;
     Protocol.origin := "x";
     Protocol.serviceWorkerRegistrationId := None;
     Protocol.service := "push";
     Protocol.eventName := "push-received";
     Protocol.instanceId := "4";
     Protocol.eventMetadata := [] |}.

Definition sw_a : SDK.ServiceWorkerVersion :=
  {| SDK.scriptURL := "https://a.com/sw.js"; SDK.securityOrigin := "https://a.com" |}.

Definition env : Env :=
  {| getEvents := fun _ => [push_a; push_b; sync_a; push_a];
     registrations :=
       {[ "7" := {| SDK.versions := [sw_a] |};
          "8" := {| SDK.versions := [] |} ]};
     securityOrigins := ["https://a.com"] |}.

(** The same collaborators after the active origin moved to b.com. *)
Definition env_b : Env :=
  {| getEvents := getEvents env;
     registrations := registrations env;
     securityOrigins := ["https://b.com"] |}.

Definition view (showOtherOrigins : bool) : View :=
  {| _serviceName := "push";
     _recordButton := {| UI.toggled := false |};
     _originCheckbox := {| UI.checked := showOtherOrigins |};
     _dataGrid := [];
     _model := [Enable "push"] |}.

Definition formatTimestamp (t : float) (full : bool) : string :=
  if PrimFloat.ltb t 1750%float then "early" else "late".

Definition styleNodes (cssFile : string) : list DOM.Node :=
  [DOM.Elem "style" "" [DOM.Text cssFile]].

Definition anchor : AnchorBox := {| x := 10; y := 20; width := 300; height := 18 |}.

Definition mousedown : Event := {| type := "mousedown"; target_boxInWindow := anchor |}.

Definition mousemove : Event := {| type := "mousemove"; target_boxInWindow := anchor |}.

Definition recording : RecordingState :=
  {| serviceName := "push"; isRecording := true |}.

End Sample.

Section BackgroundServiceView.

(** [UI.formatTimestamp(timestamp, full)] of the toolkit. *)
Variable formatTimestamp : float -> bool -> string.

(** [UI.appendStyle(node, cssFile)] of the toolkit appends style nodes to
    [node]; [styleNodes cssFile] are the nodes it appends. *)
Variable styleNodes : string -> list DOM.Node.

Definition appendStyle (node : DOM.Node) (cssFile : string) : DOM.Node :=
  fold_left (fun n c => DOM.appendChild c n) (styleNodes cssFile) node.

(** Called when the [Toggle Record] button is clicked. *)
Definition _toggleRecording (v : View) : View :=
  call (SetRecording (negb (UI.toggled (_recordButton v))) (_serviceName v)) v.

(** Called when the [Clear] button is clicked:
    [this._dataGrid.rootNode().removeChildren()]. *)
Definition _clearView (v : View) : View := with_dataGrid [] v.

(** Called when the [Delete] button is clicked. *)
Definition _deleteEvents (v : View) : View :=
  _clearView (call (ClearEvents (_serviceName v)) v).

Definition _onRecordingStateChanged (state : RecordingState) (v : View) : View :=
  if negb (String.eqb (serviceName state) (_serviceName v)) then v
  else with_recordButton (UI.setToggled (isRecording state) (_recordButton v)) v.

(** Filtration function to know whether event should be shown or not. *)
Definition _acceptEvent (env : Env) (v : View)
    (event : Protocol.BackgroundServiceEvent) : bool :=
  if negb (String.eqb (Protocol.service event) (_serviceName v)) then false
  else if UI.checked (_originCheckbox v) then true
  else
    (* Trim the trailing '/'. *)
    let origin :=
      JS.substr (Protocol.origin event) 0
        (Some (JS.length (Protocol.origin event) - 1)%Z) in
    JS.includes (securityOrigins env) origin.

(** The first half of [_createEventData]: try to get the script name of
    the Service Worker registration to be more user-friendly. *)
Definition swSourceOf (env : Env)
    (serviceEvent : Protocol.BackgroundServiceEvent) : string :=
  let registrations :=
    match Protocol.serviceWorkerRegistrationId serviceEvent with
    | Some rid => registrations env !! rid
    | None => None
    end in
  match registrations with
  | Some r =>
      match SDK.versions r with
      | version :: _ =>
          (* Any version will do since we care about the script URL. *)
          JS.substr (SDK.scriptURL version)
            (JS.length (SDK.securityOrigin version)) None
      | [] => ""
      end
  | None => ""
  end.

(** Creates the data object to pass to the DataGrid Node. *)
Definition _createEventData (env : Env) (v : View)
    (serviceEvent : Protocol.BackgroundServiceEvent) : EventData.t :=
  let swSource := swSourceOf env serviceEvent in
  {| EventData.id := List.length (_dataGrid v);
     EventData.timestamp :=
       formatTimestamp (PrimFloat.mul (Protocol.timestamp serviceEvent) 1000) true;
     EventData.origin := Protocol.origin serviceEvent;
     EventData.swSource := swSource;
     EventData.eventName := Protocol.eventName serviceEvent;
     EventData.instanceId := Protocol.instanceId serviceEvent |}.

Definition _addEvent (env : Env) (v : View)
    (serviceEvent : Protocol.BackgroundServiceEvent) : View :=
  let data := _createEventData env v serviceEvent in
  let dataNode :=
    {| data := data; _eventMetadata := Protocol.eventMetadata serviceEvent |} in
  with_dataGrid (_dataGrid v ++ [dataNode]) v.

(** Called when the [Refresh] button is clicked. *)
Definition _refreshView (env : Env) (v : View) : View :=
  let v := _clearView v in
  let v := call (GetEvents (_serviceName v)) v in
  let events :=
    List.filter (fun event => _acceptEvent env v event)
      (getEvents env (_serviceName v)) in
  fold_left (_addEvent env) events v.

Definition _onEventReceived (env : Env)
    (serviceEvent : Protocol.BackgroundServiceEvent) (v : View) : View :=
  if negb (_acceptEvent env v serviceEvent) then v
  else _addEvent env v serviceEvent.

Definition _onOriginChanged (env : Env) (v : View) : View :=
  (* No need to refresh the view if we are already showing all events. *)
  if UI.checked (_originCheckbox v) then v
  else _refreshView env v.

(** The listeners the constructor and [_setupToolbar] register, as one
    dispatch on what reaches the view.  The origin checkbox has already
    taken its new state when its listener runs. *)
Inductive Notification :=
| RecordButtonClick
| RefreshButtonClick
| ClearButtonClick
| DeleteButtonClick
| OriginCheckboxClick
| RecordingStateChanged (state : RecordingState)
| BackgroundServiceEventReceived (serviceEvent : Protocol.BackgroundServiceEvent)
| MainSecurityOriginChanged.

Definition dispatch (env : Env) (n : Notification) (v : View) : View :=
  match n with
  | RecordButtonClick => _toggleRecording v
  | RefreshButtonClick => _refreshView env v
  | ClearButtonClick => _clearView v
  | DeleteButtonClick => _deleteEvents v
  | OriginCheckboxClick => _refreshView env v
  | RecordingStateChanged state => _onRecordingStateChanged state v
  | BackgroundServiceEventReceived serviceEvent =>
      _onEventReceived env serviceEvent v
  | MainSecurityOriginChanged => _onOriginChanged env v
  end.

(** One delivery to the view: a notification, with the state of the
    collaborators when it arrives and the state the user has left the
    origin checkbox in (the checkbox is the toolkit's; no handler sets
    it). *)
Record Delivery := {
  world : Env;
  userChecked : bool;
  notification : Notification;
}.

Definition deliver (d : Delivery) (v : View) : View :=
  dispatch (world d) (notification d)
    (with_originCheckbox {| UI.checked := userChecked d |} v).

(** A session of the view: deliveries handled one after the other. *)
Definition run (ds : list Delivery) (v : View) : View :=
  fold_left (fun v d => deliver d v) ds v.

(** [Common.UIString(text)] of the toolkit. *)
Variable UIString : string -> string.

Definition _createDataGrid : DataGrid.t :=
  let columns :=
    [ {| DataGrid.id := "id"; DataGrid.title := UIString "#"; DataGrid.weight := 1 |};
      {| DataGrid.id := "timestamp"; DataGrid.title := UIString "Timestamp";
         DataGrid.weight := 8 |};
      {| DataGrid.id := "origin"; DataGrid.title := UIString "Origin";
         DataGrid.weight := 10 |};
      {| DataGrid.id := "swSource"; DataGrid.title := UIString "SW Source";
         DataGrid.weight := 4 |};
      {| DataGrid.id := "eventName"; DataGrid.title := UIString "Event";
         DataGrid.weight := 10 |};
      {| DataGrid.id := "instanceId"; DataGrid.title := UIString "Instance ID";
         DataGrid.weight := 10 |} ] in
  (* dataGrid.setStriped(true) *)
  {| DataGrid.columns := columns; DataGrid.striped := true |}.

(** ** The row detail adapter *)

Definition entryClass : string := "background-service-metadata-entry".

(** The body of the [for (const entry of this._eventMetadata)] loop. *)
Definition appendEntry (container : DOM.Node) (entry : Protocol.EventMetadata)
    : DOM.M DOM.Node :=
  let* entryDiv := DOM.createElementWithClass "div" entryClass in
  let* key :=
    DOM.createElementWithClass "label" "background-service-metadata-key" in
  let key := DOM.set_textContent (Protocol.key entry ++ ": ") key in
  let* value :=
    DOM.createElementWithClass "label" "background-service-metadata-value" in
  let value := DOM.set_textContent (Protocol.value entry) value in
  let entryDiv := DOM.appendChild key entryDiv in
  let entryDiv := DOM.appendChild value entryDiv in
  DOM.ret (DOM.appendChild entryDiv container).

Definition _createPopover (node : EventDataNode) (event : Event)
    : DOM.M (option PopoverRequest) :=
  if negb (String.eqb (type event) "mousedown") then DOM.ret None
  else
    (* Create popover container. *)
    let* container :=
      DOM.createElementWithClass "div" "background-service-popover-container" in
    let container := appendStyle container "resources/backgroundServiceView.css" in
    let* container :=
      (if Nat.eqb (List.length (_eventMetadata node)) 0 then
         let* entryDiv := DOM.createElementWithClass "div" entryClass in
         let entryDiv := DOM.set_textContent "There is no metadata for this event" entryDiv in
         DOM.ret (DOM.appendChild entryDiv container)
       else DOM.ret container) in
    let* container := DOM.forOf (_eventMetadata node) appendEntry container in
    DOM.ret (Some {| box := target_boxInWindow event;
                     show := fun popover => (DOM.appendChild container popover, true) |}).


(** ** Vocabulary of the properties *)

(** The row that stands for [serviceEvent] with sequence id [n]. *)
Definition rowOf (env : Env) (n : nat)
    (serviceEvent : Protocol.BackgroundServiceEvent) : EventDataNode :=
  {| data :=
       {| EventData.id := n;
          EventData.timestamp :=
            formatTimestamp (PrimFloat.mul (Protocol.timestamp serviceEvent) 1000) true;
          EventData.origin := Protocol.origin serviceEvent;
          EventData.swSource := swSourceOf env serviceEvent;
          EventData.eventName := Protocol.eventName serviceEvent;
          EventData.instanceId := Protocol.instanceId serviceEvent |};
     _eventMetadata := Protocol.eventMetadata serviceEvent |}.

(** The events of the model's buffer that pass the filter, in buffer
    order. *)
Definition accepted (env : Env) (v : View) : list Protocol.BackgroundServiceEvent :=
  List.filter (_acceptEvent env v) (getEvents env (_serviceName v)).

(** The registration the registry holds for the event's registration id,
    if any. *)
Definition registrationOf (env : Env)
    (serviceEvent : Protocol.BackgroundServiceEvent)
    : option SDK.ServiceWorkerRegistration :=
  rid ← Protocol.serviceWorkerRegistrationId serviceEvent;
  registrations env !! rid.

(** The element the popover shows for one metadata pair. *)
Definition entryDivOf (entry : Protocol.EventMetadata) : DOM.Node :=
  DOM.Elem "div" entryClass
    [DOM.Elem "label" "background-service-metadata-key"
       [DOM.Text (Protocol.key entry ++ ": ")];
     DOM.Elem "label" "background-service-metadata-value"
       (if String.eqb (Protocol.value entry) "" then []
        else [DOM.Text (Protocol.value entry)])].

(** The service a request to the model names. *)
Definition callService (c : ModelCall) : string :=
  match c with
  | Enable s => s
  | SetRecording _ s => s
  | GetEvents s => s
  | ClearEvents s => s
  end.

(** The requests one notification makes the view send. *)
Definition requests (n : Notification) (v : View) : list ModelCall :=
  match n with
  | RecordButtonClick =>
      [SetRecording (negb (UI.toggled (_recordButton v))) (_serviceName v)]
  | RefreshButtonClick | OriginCheckboxClick => [GetEvents (_serviceName v)]
  | DeleteButtonClick => [ClearEvents (_serviceName v)]
  | MainSecurityOriginChanged =>
      if UI.checked (_originCheckbox v) then [] else [GetEvents (_serviceName v)]
  | ClearButtonClick | RecordingStateChanged _ | BackgroundServiceEventReceived _ => []
  end.

(** The ids of the rows, top to bottom. *)
Definition rowIds (v : View) : list nat :=
  (EventData.id ∘ data) <$> _dataGrid v.

(** The placeholder entry of a popover without metadata. *)
Definition placeholderDiv : DOM.Node :=
  DOM.Elem "div" entryClass [DOM.Text "There is no metadata for this event"].

(** The metadata entries of a popover container: its children of class
    [background-service-metadata-entry]. *)
Definition metadataEntries (container : DOM.Node) : list DOM.Node :=
  List.filter (DOM.hasClass entryClass) (DOM.children container).

(** How one metadata pair reads in the popover. *)
Definition entryText (entry : Protocol.EventMetadata) : string :=
  Protocol.key entry ++ ": " ++ Protocol.value entry.

(** ** Strings *)

Lemma substring_0_drop_last_cons (c : Ascii.ascii) (s : string) :
  String.substring 0 (String.length s) (String c s) = drop_last (String c s).
Proof.
  revert c. induction s as [|c' s IH]; intros c; [reflexivity|].
  change (String c (String.substring 0 (String.length s) (String c' s))
          = String c (drop_last (String c' s))).
  now rewrite IH.
Qed.

Lemma substring_0_drop_last (s : string) :
  String.substring 0 (String.length s - 1) s = drop_last s.
Proof.
  destruct s as [|c s]; [reflexivity|].
  cbn [String.length]. replace (S (String.length s) - 1) with (String.length s) by lia.
  apply substring_0_drop_last_cons.
Qed.

Lemma substring_0_all (s : string) : String.substring 0 (String.length s) s = s.
Proof. induction s as [|c s IH]; cbn; [reflexivity | now rewrite IH]. Qed.

Lemma drop_last_short (s : string) : String.length s <= 1 -> drop_last s = "".
Proof.
  destruct s as [|c [|c' s']]; cbn; intros H; try reflexivity; lia.
Qed.

Lemma drop_first_all (k : nat) (s : string) :
  String.length s <= k -> drop_first k s = "".
Proof.
  revert s. induction k as [|k IH]; intros [|c s] H; cbn in *; try reflexivity; try lia.
  apply IH. lia.
Qed.

Lemma substring_drop_first (k : nat) (s : string) :
  k <= String.length s ->
  String.substring k (String.length s - k) s = drop_first k s.
Proof.
  revert s. induction k as [|k IH]; intros s H.
  - rewrite Nat.sub_0_r. cbn. apply substring_0_all.
  - destruct s as [|c s]; cbn in *; [lia|]. apply IH. lia.
Qed.

(** [substr(0, length - 1)] removes the last character, whatever it is. *)
Lemma substr_drop_last (s : string) :
  JS.substr s 0 (Some (JS.length s - 1)%Z) = drop_last s.
Proof.
  unfold JS.substr, JS.length.
  destruct (Nat.le_gt_cases (String.length s) 1) as [Hs|Hs].
  - rewrite drop_last_short by exact Hs.
    replace (0 <? 0)%Z with false by reflexivity. cbn zeta.
    destruct (Z.leb_spec
      (Z.min (Z.min 0 (Z.of_nat (String.length s)) +
              Z.min (Z.max (Z.of_nat (String.length s) - 1) 0) (Z.of_nat (String.length s)))
         (Z.of_nat (String.length s)))
      (Z.min 0 (Z.of_nat (String.length s)))); [reflexivity | lia].
  - replace (0 <? 0)%Z with false by reflexivity. cbn zeta.
    replace (Z.min 0 (Z.of_nat (String.length s))) with 0%Z by lia.
    replace (Z.min (0 + Z.min (Z.max (Z.of_nat (String.length s) - 1) 0)
                          (Z.of_nat (String.length s))) (Z.of_nat (String.length s)))
      with (Z.of_nat (String.length s - 1)) by lia.
    destruct (Z.leb_spec (Z.of_nat (String.length s - 1)) 0); [lia|].
    rewrite Z.sub_0_r, Nat2Z.id. apply substring_0_drop_last.
Qed.

(** [substr(k)] removes the first [k] characters. *)
Lemma substr_drop_first (s prefix : string) :
  JS.substr s (JS.length prefix) None = drop_first (String.length prefix) s.
Proof.
  unfold JS.substr, JS.length.
  set (k := String.length prefix). set (n := String.length s).
  destruct (Z.ltb_spec (Z.of_nat k) 0); [lia|].
  destruct (Nat.le_gt_cases n k) as [Hk|Hk].
  - rewrite drop_first_all by exact Hk.
    destruct (Z.leb_spec (Z.min (Z.min (Z.of_nat k) (Z.of_nat n) + Z.of_nat n) (Z.of_nat n))
                (Z.min (Z.of_nat k) (Z.of_nat n))); [reflexivity | lia].
  - replace (Z.min (Z.of_nat k) (Z.of_nat n)) with (Z.of_nat k) by lia.
    replace (Z.min (Z.of_nat k + Z.of_nat n) (Z.of_nat n)) with (Z.of_nat n) by lia.
    destruct (Z.leb_spec (Z.of_nat n) (Z.of_nat k)); [lia|].
    rewrite Nat2Z.id. replace (Z.to_nat (Z.of_nat n - Z.of_nat k)) with (n - k) by lia.
    apply substring_drop_first. unfold k, n in *. lia.
Qed.

Lemma includes_elem_of (l : list string) (x : string) :
  JS.includes l x = true <-> x ∈ l.
Proof.
  unfold JS.includes. rewrite existsb_exists, list_elem_of_In. split.
  - intros (y & Hin & Heq). apply String.eqb_eq in Heq. now subst.
  - intros Hin. exists x. split; [exact Hin | apply String.eqb_refl].
Qed.

(** ** The event filter *)

(** The filter reads the view only through its bound service name and
    the origin checkbox. *)
Lemma acceptEvent_frame (env : Env) (v v' : View)
    (event : Protocol.BackgroundServiceEvent) :
  _serviceName v' = _serviceName v ->
  _originCheckbox v' = _originCheckbox v ->
  _acceptEvent env v' event = _acceptEvent env v event.
Proof. unfold _acceptEvent. now intros -> ->. Qed.

Lemma acceptEvent_unfiltered (env : Env) (v : View)
    (event : Protocol.BackgroundServiceEvent) :
  Protocol.service event = _serviceName v ->
  UI.checked (_originCheckbox v) = false ->
  _acceptEvent env v event
  = JS.includes (securityOrigins env) (drop_last (Protocol.origin event)).
Proof.
  intros Hsvc Hbox. unfold _acceptEvent.
  rewrite Hsvc, String.eqb_refl, Hbox. cbn. now rewrite substr_drop_last.
Qed.

(** C1.  [_acceptEvent] rejects an event of another service; for an event
    of the bound service it accepts when the origin checkbox is checked,
    and otherwise accepts exactly when the event's origin without its
    last character is one of the active security origins. *)
Theorem acceptEvent_spec (env : Env) (v : View)
    (event : Protocol.BackgroundServiceEvent) :
  (Protocol.service event <> _serviceName v ->
   _acceptEvent env v event = false) /\
  (Protocol.service event = _serviceName v ->
   UI.checked (_originCheckbox v) = true ->
   _acceptEvent env v event = true) /\
  (Protocol.service event = _serviceName v ->
   UI.checked (_originCheckbox v) = false ->
   (_acceptEvent env v event = true <->
    drop_last (Protocol.origin event) ∈ securityOrigins env)).
Proof.
  split; [|split].
  - intros Hne. unfold _acceptEvent.
    apply String.eqb_neq in Hne. now rewrite Hne.
  - intros Hsvc Hbox. unfold _acceptEvent.
    now rewrite Hsvc, String.eqb_refl, Hbox.
  - intros Hsvc Hbox. rewrite acceptEvent_unfiltered by assumption.
    apply includes_elem_of.
Qed.

(** C10.  With the bound service and the origin filter on, the last
    character of the origin is removed whatever it is and the result is
    looked up among the active origins; an origin of at most one
    character is looked up as the empty string.  No origin string makes
    the trimming fail. *)
Theorem acceptEvent_total_on_origins (env : Env) (v : View)
    (event : Protocol.BackgroundServiceEvent) :
  Protocol.service event = _serviceName v ->
  UI.checked (_originCheckbox v) = false ->
  JS.substr (Protocol.origin event) 0
    (Some (JS.length (Protocol.origin event) - 1)%Z)
  = drop_last (Protocol.origin event) /\
  _acceptEvent env v event
  = JS.includes (securityOrigins env) (drop_last (Protocol.origin event)) /\
  (String.length (Protocol.origin event) <= 1 ->
   _acceptEvent env v event = JS.includes (securityOrigins env) "").
Proof.
  intros Hsvc Hbox. split; [apply substr_drop_last|]. split.
  - now apply acceptEvent_unfiltered.
  - intros Hshort. rewrite acceptEvent_unfiltered by assumption.
    now rewrite drop_last_short.
Qed.

(** ** Rebuilding the table *)

Lemma addEvent_dataGrid (env : Env) (v : View)
    (serviceEvent : Protocol.BackgroundServiceEvent) :
  _dataGrid (_addEvent env v serviceEvent)
  = (_dataGrid v ++ [rowOf env (List.length (_dataGrid v)) serviceEvent])%list.
Proof. reflexivity. Qed.

(** Everything but the rows is left alone by a run of [_addEvent]. *)
Lemma fold_addEvent_frame (env : Env)
    (events : list Protocol.BackgroundServiceEvent) (v : View) :
  _serviceName (fold_left (_addEvent env) events v) = _serviceName v /\
  _recordButton (fold_left (_addEvent env) events v) = _recordButton v /\
  _originCheckbox (fold_left (_addEvent env) events v) = _originCheckbox v /\
  _model (fold_left (_addEvent env) events v) = _model v.
Proof.
  revert v. induction events as [|e events IH]; intros v; [easy|].
  cbn [fold_left]. destruct (IH (_addEvent env v e)) as (-> & -> & -> & ->).
  easy.
Qed.

(** A run of [_addEvent] appends one row per event, numbered from the
    current row count. *)
Lemma fold_addEvent_dataGrid (env : Env)
    (events : list Protocol.BackgroundServiceEvent) (v : View) :
  _dataGrid (fold_left (_addEvent env) events v)
  = (_dataGrid v
     ++ imap (fun i => rowOf env (List.length (_dataGrid v) + i)) events)%list.
Proof.
  revert v. induction events as [|e events IH]; intros v.
  - cbn. now rewrite app_nil_r.
  - cbn [fold_left]. rewrite IH, addEvent_dataGrid, imap_cons, <- app_assoc.
    cbn [app]. rewrite Nat.add_0_r. do 2 f_equal.
    apply imap_ext. intros i x _. cbn.
    rewrite length_app. cbn. f_equal. lia.
Qed.

Lemma refreshView_frame (env : Env) (v : View) :
  _serviceName (_refreshView env v) = _serviceName v /\
  _recordButton (_refreshView env v) = _recordButton v /\
  _originCheckbox (_refreshView env v) = _originCheckbox v /\
  _model (_refreshView env v) = (_model v ++ [GetEvents (_serviceName v)])%list.
Proof.
  unfold _refreshView.
  match goal with
  | |- context [fold_left (_addEvent env) ?es ?w] =>
      destruct (fold_addEvent_frame env es w) as (-> & -> & -> & ->)
  end.
  easy.
Qed.

(** The rows after a refresh: the accepted events of the buffer, in
    buffer order, numbered from zero. *)
Lemma refreshView_dataGrid (env : Env) (v : View) :
  _dataGrid (_refreshView env v) = imap (rowOf env) (accepted env v).
Proof.
  unfold _refreshView. rewrite fold_addEvent_dataGrid. cbn.
  unfold accepted. apply imap_ext. intros i x _. reflexivity.
Qed.

Lemma accepted_frame (env : Env) (v v' : View) :
  _serviceName v' = _serviceName v ->
  _originCheckbox v' = _originCheckbox v ->
  accepted env v' = accepted env v.
Proof.
  intros Hs Hc. unfold accepted. rewrite Hs.
  apply List.filter_ext. intros e. now apply acceptEvent_frame.
Qed.

(** C2.  Refreshing twice in a row, with the model buffer, the filter
    state and the active origins unchanged, leaves the same rows as
    refreshing once: the same number of rows and, position by position,
    the same id, timestamp, origin, swSource, eventName and instanceId. *)
Theorem refreshView_idempotent (env : Env) (v : View) :
  _dataGrid (_refreshView env (_refreshView env v))
  = _dataGrid (_refreshView env v) /\
  List.length (_dataGrid (_refreshView env (_refreshView env v)))
  = List.length (_dataGrid (_refreshView env v)) /\
  data <$> _dataGrid (_refreshView env (_refreshView env v))
  = data <$> _dataGrid (_refreshView env v).
Proof.
  assert (H : _dataGrid (_refreshView env (_refreshView env v))
              = _dataGrid (_refreshView env v)).
  { rewrite !refreshView_dataGrid.
    destruct (refreshView_frame env v) as (Hs & _ & Hc & _).
    now rewrite (accepted_frame env v (_refreshView env v) Hs Hc). }
  now rewrite H.
Qed.

(** C3.  After a refresh that accepts [n] events of the buffer the table
    holds [n] rows, the row at each position is the one built from the
    accepted event at that position of the buffer order, and the ids
    read 0, 1, ..., n-1. *)
Theorem refreshView_rows (env : Env) (v : View) :
  let rows := _dataGrid (_refreshView env v) in
  let n := List.length (accepted env v) in
  List.length rows = n /\
  (forall i, rows !! i = rowOf env i <$> accepted env v !! i) /\
  (EventData.id ∘ data) <$> rows = seq 0 n.
Proof.
  cbn zeta. rewrite refreshView_dataGrid. split; [apply length_imap|]. split.
  - intros i. apply list_lookup_imap.
  - rewrite fmap_imap.
    rewrite (imap_ext _ (fun i _ => i)) by reflexivity.
    rewrite (imap_seq_0 (accepted env v) (fun i => i)).
    apply list_fmap_id.
Qed.

(** C5.  When the active security origin changes, a checked origin
    checkbox makes the handler do nothing; an unchecked one makes it
    refresh: the rows become the accepted events of the buffer. *)
Theorem onOriginChanged_spec (env : Env) (v : View) :
  (UI.checked (_originCheckbox v) = true ->
   _onOriginChanged env v = v) /\
  (UI.checked (_originCheckbox v) = false ->
   _onOriginChanged env v = _refreshView env v /\
   _dataGrid (_onOriginChanged env v) = imap (rowOf env) (accepted env v)).
Proof.
  unfold _onOriginChanged. split; intros ->; [reflexivity|].
  split; [reflexivity | apply refreshView_dataGrid].
Qed.

(** C9.  Whichever way a row is inserted, its id is the number of rows
    the table held just before: for a live event that passes the filter,
    for every call of [_addEvent], and at every position after a
    refresh.  Hence, once the view is
    cleared, the next accepted live event gets id 0, and clearing again
    lets a later row take id 0 as well. *)
Theorem sequence_id_is_row_count (env : Env) (v : View)
    (serviceEvent : Protocol.BackgroundServiceEvent) :
  _acceptEvent env v serviceEvent = true ->
  _dataGrid (_onEventReceived env serviceEvent v)
  = (_dataGrid v ++ [rowOf env (List.length (_dataGrid v)) serviceEvent])%list /\
  EventData.id (data (rowOf env (List.length (_dataGrid v)) serviceEvent))
  = List.length (_dataGrid v) /\
  (forall w e, exists row,
     _dataGrid (_addEvent env w e) = (_dataGrid w ++ [row])%list /\
     EventData.id (data row) = List.length (_dataGrid w)) /\
  (forall i row, _dataGrid (_refreshView env v) !! i = Some row ->
     EventData.id (data row) = i) /\
  _dataGrid (_onEventReceived env serviceEvent (_clearView v))
  = [rowOf env 0 serviceEvent] /\
  _dataGrid (_onEventReceived env serviceEvent
     (_clearView (_onEventReceived env serviceEvent (_clearView v))))
  = [rowOf env 0 serviceEvent].
Proof.
  intros Hacc.
  assert (Hlive : forall w, _serviceName w = _serviceName v ->
            _originCheckbox w = _originCheckbox v ->
            _dataGrid (_onEventReceived env serviceEvent w)
            = (_dataGrid w ++ [rowOf env (List.length (_dataGrid w)) serviceEvent])%list).
  { intros w Hs Hc. unfold _onEventReceived.
    rewrite (acceptEvent_frame env v w serviceEvent Hs Hc), Hacc. reflexivity. }
  split; [now apply Hlive|]. split; [reflexivity|]. split; [|split; [|split]].
  - intros w e. eexists. split; [apply addEvent_dataGrid | reflexivity].
  - intros i row Hrow.
    rewrite refreshView_dataGrid, list_lookup_imap in Hrow.
    destruct (accepted env v !! i); [|discriminate].
    injection Hrow as <-. reflexivity.
  - now rewrite Hlive.
  - rewrite Hlive; [reflexivity| |].
    + unfold _onEventReceived. now destruct (negb _).
    + unfold _onEventReceived. now destruct (negb _).
Qed.

(** ** Row construction *)

(** The version used is the first one of the registration. *)
Lemma swSourceOf_head (env : Env)
    (serviceEvent : Protocol.BackgroundServiceEvent)
    (r : SDK.ServiceWorkerRegistration) (version : SDK.ServiceWorkerVersion) :
  registrationOf env serviceEvent = Some r ->
  head (SDK.versions r) = Some version ->
  swSourceOf env serviceEvent
  = drop_first (String.length (SDK.securityOrigin version)) (SDK.scriptURL version).
Proof.
  unfold registrationOf, swSourceOf. intros Hr Hv.
  destruct (Protocol.serviceWorkerRegistrationId serviceEvent) as [rid|];
    [|discriminate].
  cbn in Hr. rewrite Hr.
  destruct (SDK.versions r) as [|v0 vs]; [discriminate|].
  injection Hv as ->. apply substr_drop_first.
Qed.

(** C4.  The service-worker source of a row is empty when the registry
    has no registration for the event's registration id or the
    registration has no version; otherwise it is the script URL of one of
    the registration's versions without its first [k] characters, [k]
    being the length of that version's security origin. *)
Theorem swSource_spec (env : Env) (v : View)
    (serviceEvent : Protocol.BackgroundServiceEvent) :
  let swSource := EventData.swSource (_createEventData env v serviceEvent) in
  (registrationOf env serviceEvent = None -> swSource = "") /\
  (forall r, registrationOf env serviceEvent = Some r ->
     SDK.versions r = [] -> swSource = "") /\
  (forall r, registrationOf env serviceEvent = Some r ->
     SDK.versions r <> [] ->
     exists version, version ∈ SDK.versions r /\
       swSource = drop_first (String.length (SDK.securityOrigin version))
                    (SDK.scriptURL version)).
Proof.
  cbn zeta. cbn [_createEventData EventData.swSource]. split; [|split].
  - unfold registrationOf, swSourceOf.
    destruct (Protocol.serviceWorkerRegistrationId serviceEvent) as [rid|];
      [|reflexivity].
    cbn. now intros ->.
  - unfold registrationOf, swSourceOf. intros r Hr Hv.
    destruct (Protocol.serviceWorkerRegistrationId serviceEvent) as [rid|];
      [|discriminate].
    cbn in Hr. now rewrite Hr, Hv.
  - intros r Hr Hv. destruct (SDK.versions r) as [|version vs] eqn:E; [easy|].
    exists version. split; [apply list_elem_of_here|].
    apply (swSourceOf_head env serviceEvent r version Hr). now rewrite E.
Qed.

(** ** The record button *)

(** C6.  A click on the record button sends the model one request,
    [setRecording] with the negation of the button's toggled state and
    the bound service name, and leaves the button as it is.  Whatever
    reaches the view, the toggled state changes only on a
    recording-state-changed notification for the bound service, and such
    a notification sets it to the notified [isRecording]. *)
Theorem toggleRecording_spec (env : Env) (v : View) :
  _model (_toggleRecording v)
  = (_model v ++ [SetRecording (negb (UI.toggled (_recordButton v)))
                    (_serviceName v)])%list /\
  _recordButton (_toggleRecording v) = _recordButton v /\
  (forall n,
     UI.toggled (_recordButton (dispatch env n v))
     <> UI.toggled (_recordButton v) ->
     exists state, n = RecordingStateChanged state /\
       serviceName state = _serviceName v /\
       UI.toggled (_recordButton (dispatch env n v)) = isRecording state) /\
  (forall state, serviceName state = _serviceName v ->
     UI.toggled (_recordButton (dispatch env (RecordingStateChanged state) v))
     = isRecording state).
Proof.
  split; [reflexivity|]. split; [reflexivity|]. split.
  - intros n Hchg. destruct n as [ | | | | |state|e| ]; cbn [dispatch] in *;
      try (exfalso; apply Hchg; reflexivity).
    + exfalso. apply Hchg. now destruct (refreshView_frame env v) as (_ & -> & _).
    + exfalso. apply Hchg. now destruct (refreshView_frame env v) as (_ & -> & _).
    + exists state. split; [reflexivity|].
      unfold _onRecordingStateChanged in *.
      destruct (String.eqb_spec (serviceName state) (_serviceName v)) as [Heq|Hne];
        cbn in *; [easy | now exfalso].
    + exfalso. apply Hchg. unfold _onEventReceived. now destruct (negb _).
    + exfalso. apply Hchg. unfold _onOriginChanged.
      destruct (UI.checked _); [reflexivity|].
      now destruct (refreshView_frame env v) as (_ & -> & _).
  - intros state Hs. cbn [dispatch]. unfold _onRecordingStateChanged.
    now rewrite Hs, String.eqb_refl.
Qed.

(** ** The metadata popover *)

Lemma append_nil_r (s : string) : s ++ "" = s.
Proof.
  induction s as [|c s IH]; [reflexivity|].
  change (String c (s ++ "") = String c s). now rewrite IH.
Qed.

Lemma append_assoc (s1 s2 s3 : string) : (s1 ++ s2) ++ s3 = s1 ++ s2 ++ s3.
Proof.
  induction s1 as [|c s1 IH]; [reflexivity|].
  change (String c ((s1 ++ s2) ++ s3) = String c (s1 ++ s2 ++ s3)). now rewrite IH.
Qed.

Lemma key_label_not_empty (k : string) : String.eqb (k ++ ": ") "" = false.
Proof. now destruct k. Qed.

Lemma textContent_entryDivOf (entry : Protocol.EventMetadata) :
  DOM.textContent (entryDivOf entry) = entryText entry.
Proof.
  unfold entryDivOf, entryText.
  destruct (String.eqb_spec (Protocol.value entry) "") as [->|_]; cbn.
  all: now rewrite !append_nil_r, ?append_assoc.
Qed.

Lemma appendStyle_Elem (t c : string) (cs : list DOM.Node) (cssFile : string) :
  appendStyle (DOM.Elem t c cs) cssFile = DOM.Elem t c (cs ++ styleNodes cssFile).
Proof.
  unfold appendStyle. revert cs.
  induction (styleNodes cssFile) as [|s l IH]; intros cs; cbn.
  - now rewrite app_nil_r.
  - now rewrite IH, <- app_assoc.
Qed.

Lemma appendEntry_Elem (t c : string) (cs : list DOM.Node)
    (entry : Protocol.EventMetadata) (n : nat) :
  appendEntry (DOM.Elem t c cs) entry n
  = (DOM.Elem t c (cs ++ [entryDivOf entry]), 3 + n).
Proof.
  unfold appendEntry, DOM.bind, DOM.createElementWithClass, DOM.ret, entryDivOf.
  cbn. now rewrite key_label_not_empty.
Qed.

(** The loop appends one entry element per metadata pair, in order, and
    creates three elements for each. *)
Lemma forOf_appendEntry (t c : string) (metadata : list Protocol.EventMetadata)
    (cs : list DOM.Node) (n : nat) :
  DOM.forOf metadata appendEntry (DOM.Elem t c cs) n
  = (DOM.Elem t c (cs ++ (entryDivOf <$> metadata)),
     3 * List.length metadata + n).
Proof.
  revert cs n. induction metadata as [|entry metadata IH]; intros cs n.
  - cbn. now rewrite app_nil_r.
  - cbn [DOM.forOf]. unfold DOM.bind at 1. rewrite appendEntry_Elem, IH.
    rewrite <- app_assoc. cbn [List.length fmap list_fmap app]. f_equal. lia.
Qed.

Lemma filter_entryDivOf (metadata : list Protocol.EventMetadata) :
  List.filter (DOM.hasClass entryClass) (entryDivOf <$> metadata)
  = entryDivOf <$> metadata.
Proof.
  induction metadata as [|entry metadata IH]; [reflexivity|].
  cbn. now rewrite IH.
Qed.

Lemma filter_styleNodes (l : list DOM.Node) :
  Forall (fun s => DOM.hasClass entryClass s = false) l ->
  List.filter (DOM.hasClass entryClass) l = [].
Proof.
  induction 1 as [|s l Hs _ IH]; [reflexivity|]. cbn. now rewrite Hs.
Qed.

(** C8.  A trigger whose type is not [mousedown] yields no popover
    request, and no element is created for it. *)
Theorem createPopover_other_trigger (node : EventDataNode) (event : Event)
    (n : nat) :
  type event <> "mousedown" ->
  _createPopover node event n = (None, n).
Proof.
  intros Hne. unfold _createPopover.
  apply String.eqb_neq in Hne. now rewrite Hne.
Qed.

(** C7.  On a [mousedown] trigger the popover gets a container.  For a
    row without metadata the container holds exactly one metadata entry,
    reading "There is no metadata for this event".  For a row with
    metadata it holds one entry per pair, in the order of the metadata,
    each reading the key, then ": ", then the value.  The style nodes
    the toolkit adds are assumed not to be metadata entries. *)
Theorem createPopover_content (node : EventDataNode) (event : Event) (n : nat) :
  Forall (fun s => DOM.hasClass entryClass s = false)
    (styleNodes "resources/backgroundServiceView.css") ->
  type event = "mousedown" ->
  exists request container,
    fst (_createPopover node event n) = Some request /\
    box request = target_boxInWindow event /\
    (forall popover,
       show request popover = (DOM.appendChild container popover, true)) /\
    (_eventMetadata node = [] ->
     exists entry, metadataEntries container = [entry] /\
       DOM.textContent entry = "There is no metadata for this event") /\
    (_eventMetadata node <> [] ->
     List.length (metadataEntries container)
     = List.length (_eventMetadata node) /\
     DOM.textContent <$> metadataEntries container
     = entryText <$> _eventMetadata node).
Proof.
  intros Hstyle Hev. unfold _createPopover. rewrite Hev.
  cbn [String.eqb Ascii.eqb Bool.eqb negb].
  unfold DOM.bind at 1. unfold DOM.createElementWithClass at 1.
  rewrite appendStyle_Elem. cbn [app].
  destruct (_eventMetadata node) as [|entry metadata] eqn:Emd.
  - cbn. eexists _, _. split; [reflexivity|]. split; [reflexivity|].
    split; [reflexivity|]. split; [|easy].
    intros _. unfold metadataEntries. cbn [DOM.children].
    rewrite List.filter_app, filter_styleNodes by exact Hstyle.
    eexists. split; reflexivity.
  - cbn [List.length Nat.eqb]. unfold DOM.bind, DOM.ret.
    rewrite forOf_appendEntry. cbn [fst].
    eexists _, _. split; [reflexivity|]. split; [reflexivity|].
    split; [reflexivity|]. split; [easy|].
    intros _. unfold metadataEntries. cbn [DOM.children].
    rewrite List.filter_app, filter_styleNodes, filter_entryDivOf by exact Hstyle.
    cbn [app]. split; [now rewrite length_fmap|].
    rewrite <- list_fmap_compose. apply list_fmap_ext.
    intros i x _. apply textContent_entryDivOf.
Qed.

(** ** Sessions: what every handler keeps *)

Lemma imap_rowOf_ids (env : Env) (events : list Protocol.BackgroundServiceEvent) :
  (EventData.id ∘ data) <$> imap (rowOf env) events
  = seq 0 (List.length events).
Proof.
  rewrite fmap_imap.
  rewrite (imap_ext _ (fun i _ => i)) by reflexivity.
  rewrite (imap_seq_0 events (fun i => i)). apply list_fmap_id.
Qed.

Lemma onEventReceived_cases (env : Env)
    (serviceEvent : Protocol.BackgroundServiceEvent) (v : View) :
  (_acceptEvent env v serviceEvent = false /\
   _onEventReceived env serviceEvent v = v) \/
  (_acceptEvent env v serviceEvent = true /\
   _onEventReceived env serviceEvent v = _addEvent env v serviceEvent).
Proof.
  unfold _onEventReceived.
  destruct (_acceptEvent env v serviceEvent); [right | left]; easy.
Qed.

Lemma dispatch_frame (env : Env) (n : Notification) (v : View) :
  _serviceName (dispatch env n v) = _serviceName v /\
  _originCheckbox (dispatch env n v) = _originCheckbox v.
Proof.
  destruct n as [ | | | | |state|e| ]; cbn [dispatch]; try easy.
  - destruct (refreshView_frame env v) as (-> & _ & -> & _). easy.
  - destruct (refreshView_frame env v) as (-> & _ & -> & _). easy.
  - unfold _onRecordingStateChanged. now destruct (negb _).
  - destruct (onEventReceived_cases env e v) as [[_ ->]|[_ ->]]; easy.
  - unfold _onOriginChanged. destruct (UI.checked _); [easy|].
    destruct (refreshView_frame env v) as (-> & _ & -> & _). easy.
Qed.

Lemma dispatch_model (env : Env) (n : Notification) (v : View) :
  _model (dispatch env n v) = (_model v ++ requests n v)%list.
Proof.
  destruct n as [ | | | | |state|e| ]; cbn [dispatch requests];
    try reflexivity; try (now rewrite app_nil_r).
  - now destruct (refreshView_frame env v) as (_ & _ & _ & ->).
  - now destruct (refreshView_frame env v) as (_ & _ & _ & ->).
  - unfold _onRecordingStateChanged. destruct (negb _); now rewrite app_nil_r.
  - destruct (onEventReceived_cases env e v) as [[_ ->]|[_ ->]];
      now rewrite app_nil_r.
  - unfold _onOriginChanged. destruct (UI.checked _); [now rewrite app_nil_r|].
    now destruct (refreshView_frame env v) as (_ & _ & _ & ->).
Qed.

Lemma requests_service (n : Notification) (v : View) :
  Forall (fun c => callService c = _serviceName v) (requests n v).
Proof.
  destruct n; cbn; try destruct (UI.checked _); repeat constructor.
Qed.

Lemma requests_length (n : Notification) (v : View) :
  List.length (requests n v) <= 1.
Proof. destruct n; cbn; try destruct (UI.checked _); cbn; lia. Qed.

Lemma dispatch_rowIds (env : Env) (n : Notification) (v : View) :
  rowIds v = seq 0 (List.length (_dataGrid v)) ->
  rowIds (dispatch env n v) = seq 0 (List.length (_dataGrid (dispatch env n v))).
Proof.
  intros Hv.
  assert (Hrefresh : rowIds (_refreshView env v)
                     = seq 0 (List.length (_dataGrid (_refreshView env v)))).
  { unfold rowIds. rewrite refreshView_dataGrid, length_imap.
    apply imap_rowOf_ids. }
  destruct n as [ | | | | |state|e| ]; cbn [dispatch]; try easy.
  - unfold _onRecordingStateChanged. now destruct (negb _).
  - destruct (onEventReceived_cases env e v) as [[_ ->]|[_ ->]]; [easy|].
    unfold rowIds in *. rewrite addEvent_dataGrid, fmap_app, length_app, Hv.
    cbn. now rewrite Nat.add_1_r, seq_S.
  - unfold _onOriginChanged. now destruct (UI.checked _).
Qed.

(** X1.  At every moment of a session the rows are numbered by position:
    if the ids of the table read 0, 1, ..., n-1 from the top, they still
    do after any sequence of notifications, whatever the collaborators
    and the checkbox do in between. *)
Theorem run_rows_numbered (ds : list Delivery) (v : View) :
  rowIds v = seq 0 (List.length (_dataGrid v)) ->
  rowIds (run ds v) = seq 0 (List.length (_dataGrid (run ds v))).
Proof.
  revert v. induction ds as [|d ds IH]; intros v Hv; [exact Hv|].
  cbn [run fold_left]. apply IH. unfold deliver. now apply dispatch_rowIds.
Qed.

(** X2.  No handler changes the bound service name or the state of the
    origin checkbox, and the bound service name stays the same through a
    whole session. *)
Theorem handlers_keep_filter_state (env : Env) (n : Notification)
    (ds : list Delivery) (v : View) :
  _serviceName (dispatch env n v) = _serviceName v /\
  _originCheckbox (dispatch env n v) = _originCheckbox v /\
  _serviceName (run ds v) = _serviceName v.
Proof.
  split; [apply dispatch_frame|]. split; [apply dispatch_frame|].
  revert v. induction ds as [|d ds IH]; intros v; [reflexivity|].
  cbn [run fold_left]. fold (run ds (deliver d v)). rewrite IH.
  unfold deliver. now destruct (dispatch_frame (world d) (notification d)
    (with_originCheckbox {| UI.checked := userChecked d |} v)) as [-> _].
Qed.

Ltac absurd_request H :=
  first [ apply elem_of_nil in H; contradiction
        | apply list_elem_of_singleton in H; discriminate H ].

(** X3.  One notification makes the view send at most one request to the
    model, and only for the bound service.  [setRecording] is sent on a
    click of the record button only, [clearEvents] on a click of the
    delete button only, [enable] never; the model's own notifications
    and the clear button cause no request at all. *)
Theorem dispatch_requests (env : Env) (n : Notification) (v : View) :
  exists calls,
    _model (dispatch env n v) = (_model v ++ calls)%list /\
    List.length calls <= 1 /\
    Forall (fun c => callService c = _serviceName v) calls /\
    (forall b s, SetRecording b s ∈ calls -> n = RecordButtonClick) /\
    (forall s, ClearEvents s ∈ calls -> n = DeleteButtonClick) /\
    (forall s, Enable s ∉ calls) /\
    match n with
    | ClearButtonClick | RecordingStateChanged _
    | BackgroundServiceEventReceived _ => calls = []
    | _ => True
    end.
Proof.
  exists (requests n v). split; [apply dispatch_model|].
  split; [apply requests_length|]. split; [apply requests_service|].
  repeat split.
  - intros b s Hin. destruct n; try reflexivity; cbn in Hin;
      try destruct (UI.checked _); absurd_request Hin.
  - intros s Hin. destruct n; try reflexivity; cbn in Hin;
      try destruct (UI.checked _); absurd_request Hin.
  - intros s Hin. destruct n; cbn in Hin;
      try destruct (UI.checked _); absurd_request Hin.
  - now destruct n.
Qed.

(** X4.  Through a whole session the log of requests only grows, by at
    most one request per notification, and every request added names the
    bound service. *)
Theorem run_requests (ds : list Delivery) (v : View) :
  exists calls,
    _model (run ds v) = (_model v ++ calls)%list /\
    List.length calls <= List.length ds /\
    Forall (fun c => callService c = _serviceName v) calls.
Proof.
  revert v. induction ds as [|d ds IH]; intros v.
  - exists []. cbn. now rewrite app_nil_r.
  - cbn [run fold_left]. fold (run ds (deliver d v)).
    destruct (IH (deliver d v)) as (calls & Hm & Hlen & Hsvc).
    set (w := with_originCheckbox {| UI.checked := userChecked d |} v) in *.
    assert (Hname : _serviceName (deliver d v) = _serviceName v).
    { unfold deliver. fold w.
      now destruct (dispatch_frame (world d) (notification d) w) as [-> _]. }
    exists (requests (notification d) w ++ calls)%list.
    rewrite Hm. unfold deliver at 1. fold w.
    rewrite dispatch_model, <- app_assoc. split; [reflexivity|]. split.
    + rewrite length_app. cbn [List.length].
      pose proof (requests_length (notification d) w). lia.
    + apply Forall_app. split.
      * apply (requests_service (notification d) w).
      * now rewrite Hname in Hsvc.
Qed.

(** X5.  What a refresh shows depends on the collaborators, the bound
    service name and the origin checkbox only: the rows present before,
    the record button and the requests sent so far play no part. *)
Theorem refreshView_ignores_history (env : Env) (v v' : View) :
  _serviceName v' = _serviceName v ->
  _originCheckbox v' = _originCheckbox v ->
  _dataGrid (_refreshView env v') = _dataGrid (_refreshView env v).
Proof.
  intros Hs Hc. rewrite !refreshView_dataGrid.
  now rewrite (accepted_frame env v v' Hs Hc).
Qed.

(** X6.  A recording-state notification for another service changes
    nothing.  One for the bound service changes the record button only;
    handling the same notification twice is the same as handling it
    once, and of two notifications the later one decides the button. *)
Theorem onRecordingStateChanged_spec (state state' : RecordingState) (v : View) :
  (serviceName state <> _serviceName v ->
   _onRecordingStateChanged state v = v) /\
  _dataGrid (_onRecordingStateChanged state v) = _dataGrid v /\
  _model (_onRecordingStateChanged state v) = _model v /\
  _onRecordingStateChanged state (_onRecordingStateChanged state v)
  = _onRecordingStateChanged state v /\
  (serviceName state' = _serviceName v ->
   UI.toggled (_recordButton
     (_onRecordingStateChanged state' (_onRecordingStateChanged state v)))
   = isRecording state').
Proof.
  unfold _onRecordingStateChanged.
  destruct (String.eqb_spec (serviceName state) (_serviceName v)) as [Hs|Hs];
    cbn [negb].
  - split; [easy|]. split; [reflexivity|]. split; [reflexivity|].
    cbn [with_recordButton _serviceName]. rewrite Hs, String.eqb_refl. cbn [negb].
    split; [reflexivity|]. intros ->. now rewrite String.eqb_refl.
  - apply String.eqb_neq in Hs. rewrite Hs. cbn [negb].
    split; [easy|]. split; [reflexivity|]. split; [reflexivity|].
    split; [reflexivity|]. intros ->. now rewrite String.eqb_refl.
Qed.

(** ** The filter and the table *)

Lemma acceptEvent_true_iff (env : Env) (v : View)
    (event : Protocol.BackgroundServiceEvent) :
  _acceptEvent env v event = true <->
  Protocol.service event = _serviceName v /\
  (UI.checked (_originCheckbox v) = true \/
   drop_last (Protocol.origin event) ∈ securityOrigins env).
Proof.
  destruct (String.eqb_spec (Protocol.service event) (_serviceName v)) as [Hs|Hs].
  - destruct (UI.checked (_originCheckbox v)) eqn:Hc.
    + unfold _acceptEvent. rewrite Hs, String.eqb_refl, Hc. cbn. tauto.
    + rewrite acceptEvent_unfiltered, includes_elem_of by assumption.
      split; [tauto|]. now intros [_ [?|?]].
  - unfold _acceptEvent. apply String.eqb_neq in Hs as Hs'. rewrite Hs'. cbn.
    split; [discriminate | tauto].
Qed.

Lemma acceptEvent_env (env env' : Env) (v : View)
    (event : Protocol.BackgroundServiceEvent) :
  securityOrigins env' = securityOrigins env ->
  _acceptEvent env' v event = _acceptEvent env v event.
Proof. unfold _acceptEvent. now intros ->. Qed.

Lemma rowOf_env (env env' : Env) (i : nat)
    (event : Protocol.BackgroundServiceEvent) :
  registrations env' = registrations env ->
  rowOf env' i event = rowOf env i event.
Proof. unfold rowOf, swSourceOf. now intros ->. Qed.

Lemma filter_sublist_impl {A} (f g : A -> bool) (l : list A) :
  (forall a, f a = true -> g a = true) ->
  List.filter f l `sublist_of` List.filter g l.
Proof.
  intros Hfg. induction l as [|a l IH]; [constructor|]. cbn.
  destruct (f a) eqn:Hf.
  - rewrite (Hfg a Hf). now constructor.
  - destruct (g a); [now constructor | exact IH].
Qed.

Lemma filter_sublist {A} (f : A -> bool) (l : list A) :
  List.filter f l `sublist_of` l.
Proof.
  induction l as [|a l IH]; [constructor|]. cbn.
  destruct (f a); now constructor.
Qed.

(** X7.  A live event agrees with a rebuild: when the model has appended
    an event to its buffer and notifies the view, the table after the
    notification is the table a refresh would show. *)
Theorem live_event_matches_refresh (env env' : Env) (v : View)
    (serviceEvent : Protocol.BackgroundServiceEvent) :
  getEvents env' (_serviceName v)
  = (getEvents env (_serviceName v) ++ [serviceEvent])%list ->
  registrations env' = registrations env ->
  securityOrigins env' = securityOrigins env ->
  _dataGrid (_onEventReceived env' serviceEvent (_refreshView env v))
  = _dataGrid (_refreshView env' v).
Proof.
  intros Hbuf Hreg Hsec.
  destruct (refreshView_frame env v) as (Hs & _ & Hc & _).
  assert (Hacc : accepted env' v
                 = (accepted env v
                    ++ List.filter (_acceptEvent env v) [serviceEvent])%list).
  { unfold accepted. rewrite Hbuf, List.filter_app. f_equal;
      apply List.filter_ext; intros e; now apply acceptEvent_env. }
  rewrite (refreshView_dataGrid env' v), Hacc, imap_app.
  rewrite (imap_ext (rowOf env') (rowOf env) (accepted env v))
    by (intros; now apply rowOf_env).
  destruct (onEventReceived_cases env' serviceEvent (_refreshView env v))
    as [[Ha ->]|[Ha ->]];
    rewrite (acceptEvent_frame env' v (_refreshView env v) serviceEvent Hs Hc),
      (acceptEvent_env env env' v serviceEvent Hsec) in Ha.
  - cbn [List.filter]. rewrite Ha. cbn. rewrite app_nil_r.
    apply refreshView_dataGrid.
  - rewrite addEvent_dataGrid, refreshView_dataGrid, length_imap.
    cbn [List.filter]. rewrite Ha. cbn [imap]. now rewrite Nat.add_0_r.
Qed.

(** X8.  The origin filter only hides: with the same buffer, the events
    shown while the checkbox is unchecked are a subsequence of those
    shown while it is checked, which are a subsequence of the buffer; so
    the table never has more rows than the buffer has events. *)
Theorem origin_filter_only_hides (env : Env) (v v' : View) :
  _serviceName v' = _serviceName v ->
  UI.checked (_originCheckbox v') = true ->
  accepted env v `sublist_of` accepted env v' /\
  accepted env v' `sublist_of` getEvents env (_serviceName v) /\
  List.length (_dataGrid (_refreshView env v))
  <= List.length (_dataGrid (_refreshView env v')) /\
  List.length (_dataGrid (_refreshView env v'))
  <= List.length (getEvents env (_serviceName v)).
Proof.
  intros Hs Hc.
  assert (H1 : accepted env v `sublist_of` accepted env v').
  { unfold accepted. rewrite Hs. apply filter_sublist_impl. intros e.
    rewrite !acceptEvent_true_iff, Hs, Hc. tauto. }
  assert (H2 : accepted env v' `sublist_of` getEvents env (_serviceName v)).
  { unfold accepted. rewrite Hs. apply filter_sublist. }
  split; [exact H1|]. split; [exact H2|].
  rewrite !refreshView_dataGrid, !length_imap.
  split; now apply sublist_length.
Qed.

(** X9.  After a refresh the table shows exactly the events of the
    buffer that belong to the bound service and, unless the checkbox is
    checked, come from an active origin: every row stands for such an
    event, and every such event has its row. *)
Theorem refreshView_shows_exactly (env : Env) (v : View) :
  (forall row, row ∈ _dataGrid (_refreshView env v) ->
     exists i serviceEvent,
       row = rowOf env i serviceEvent /\
       serviceEvent ∈ getEvents env (_serviceName v) /\
       Protocol.service serviceEvent = _serviceName v /\
       (UI.checked (_originCheckbox v) = true \/
        drop_last (EventData.origin (data row)) ∈ securityOrigins env)) /\
  (forall serviceEvent,
     serviceEvent ∈ getEvents env (_serviceName v) ->
     Protocol.service serviceEvent = _serviceName v ->
     UI.checked (_originCheckbox v) = true \/
     drop_last (Protocol.origin serviceEvent) ∈ securityOrigins env ->
     exists i,
       _dataGrid (_refreshView env v) !! i = Some (rowOf env i serviceEvent)).
Proof.
  rewrite refreshView_dataGrid. split.
  - intros row Hrow. apply list_elem_of_lookup in Hrow as [i Hi].
    rewrite list_lookup_imap in Hi.
    destruct (accepted env v !! i) as [e|] eqn:He; [|discriminate].
    injection Hi as <-. exists i, e. split; [reflexivity|].
    apply list_elem_of_lookup_2, list_elem_of_In, List.filter_In in He
      as [Hin Hacc].
    apply acceptEvent_true_iff in Hacc as [Hsvc Hor].
    split; [now apply list_elem_of_In|]. split; [exact Hsvc | exact Hor].
  - intros e Hin Hsvc Hor.
    assert (He : e ∈ accepted env v).
    { apply list_elem_of_In, List.filter_In. split; [now apply list_elem_of_In|].
      now apply acceptEvent_true_iff. }
    apply list_elem_of_lookup in He as [i Hi]. exists i.
    now rewrite list_lookup_imap, Hi.
Qed.

Lemma drop_last_snoc (o : string) (c : Ascii.ascii) :
  drop_last (o ++ String c "") = o.
Proof.
  induction o as [|a o IH]; [reflexivity|].
  change (drop_last (String a (o ++ String c "")) = String a o).
  destruct (o ++ String c "") as [|a' s'] eqn:E.
  - destruct o; discriminate E.
  - change (String a (drop_last (String a' s')) = String a o). now rewrite IH.
Qed.

Lemma drop_first_app (a b : string) :
  drop_first (String.length a) (a ++ b) = b.
Proof. induction a as [|c a IH]; [reflexivity | exact IH]. Qed.

(** X10.  With the filter on, an event of the bound service whose origin
    is an active origin followed by one more character (the trailing
    slash, or any other character) is accepted, and an origin of that
    shape is accepted only if what precedes the last character is
    active. *)
Theorem acceptEvent_trailing_character (env : Env) (v : View)
    (event : Protocol.BackgroundServiceEvent) (o : string) (c : Ascii.ascii) :
  Protocol.service event = _serviceName v ->
  UI.checked (_originCheckbox v) = false ->
  Protocol.origin event = o ++ String c "" ->
  (_acceptEvent env v event = true <-> o ∈ securityOrigins env).
Proof.
  intros Hs Hc Ho.
  rewrite acceptEvent_unfiltered, includes_elem_of, Ho, drop_last_snoc
    by assumption.
  reflexivity.
Qed.

(** X11.  When the registration's first version has a script URL that
    starts with its security origin, the service-worker source of the
    row is the rest of the URL (the path relative to the origin); when
    the script URL is no longer than the security origin, it is empty. *)
Theorem swSource_relative_path (env : Env) (v : View)
    (serviceEvent : Protocol.BackgroundServiceEvent)
    (r : SDK.ServiceWorkerRegistration) (version : SDK.ServiceWorkerVersion) :
  registrationOf env serviceEvent = Some r ->
  head (SDK.versions r) = Some version ->
  (forall path, SDK.scriptURL version = SDK.securityOrigin version ++ path ->
     EventData.swSource (_createEventData env v serviceEvent) = path) /\
  (String.length (SDK.scriptURL version)
   <= String.length (SDK.securityOrigin version) ->
   EventData.swSource (_createEventData env v serviceEvent) = "").
Proof.
  intros Hr Hv. cbn [_createEventData EventData.swSource].
  rewrite (swSourceOf_head env serviceEvent r version Hr Hv). split.
  - intros path ->. apply drop_first_app.
  - apply drop_first_all.
Qed.

(** X12.  A live event that the filter rejects leaves the view exactly as
    it was: an event of another service always, and with the filter on an
    event of the bound service whose trimmed origin is not active. *)
Theorem rejected_event_changes_nothing (env : Env) (v : View)
    (serviceEvent : Protocol.BackgroundServiceEvent) :
  Protocol.service serviceEvent <> _serviceName v \/
  (UI.checked (_originCheckbox v) = false /\
   drop_last (Protocol.origin serviceEvent) ∉ securityOrigins env) ->
  dispatch env (BackgroundServiceEventReceived serviceEvent) v = v.
Proof.
  intros Hrej. cbn [dispatch].
  destruct (onEventReceived_cases env serviceEvent v) as [[_ ->]|[Ha _]];
    [reflexivity|].
  apply acceptEvent_true_iff in Ha as [Hs Hor]. exfalso.
  destruct Hrej as [Hne|[Hc Hnot]]; [now apply Hne|].
  destruct Hor as [Hc'|Hin]; [congruence | now apply Hnot].
Qed.

(** ** The popover, element by element *)

(** X13.  On a [mousedown] trigger the popover request is built afresh:
    its box is the window box of the trigger's target, its container
    holds the toolkit's style nodes followed by the placeholder (no
    metadata) or by one entry per metadata pair, and [show] appends that
    container to the popover and resolves to [true].  Building it
    creates two elements for a row without metadata and one plus three
    per pair otherwise. *)
Theorem createPopover_build (node : EventDataNode) (event : Event) (n : nat) :
  type event = "mousedown" ->
  let entries :=
    match _eventMetadata node with
    | [] => [placeholderDiv]
    | metadata => entryDivOf <$> metadata
    end in
  let container :=
    DOM.Elem "div" "background-service-popover-container"
      (styleNodes "resources/backgroundServiceView.css" ++ entries) in
  let created :=
    match _eventMetadata node with
    | [] => 2
    | metadata => 1 + 3 * List.length metadata
    end in
  exists request,
    _createPopover node event n = (Some request, created + n) /\
    box request = target_boxInWindow event /\
    (forall popover,
       show request popover = (DOM.appendChild container popover, true)).
Proof.
  intros Hev. cbn zeta. unfold _createPopover. rewrite Hev.
  cbn [String.eqb Ascii.eqb Bool.eqb negb].
  unfold DOM.bind at 1. unfold DOM.createElementWithClass at 1.
  rewrite appendStyle_Elem. cbn [app].
  destruct (_eventMetadata node) as [|entry metadata] eqn:Emd.
  - cbn. eexists. split; [reflexivity|]. split; reflexivity.
  - cbn [List.length Nat.eqb]. unfold DOM.bind, DOM.ret.
    rewrite forOf_appendEntry.
    eexists. split.
    { apply pair_equal_spec. split; [reflexivity | cbn [List.length]; lia]. }
    split; reflexivity.
Qed.

(** ** The columns of the table *)

(** X14.  The table has one column per property of a row's data object,
    in the same order and under the same name, and no two columns share
    an id: every cell of every row has a value to show, and no property
    of a row is left without a column. *)
Theorem columns_match_row_data (env : Env) (v : View)
    (serviceEvent : Protocol.BackgroundServiceEvent) :
  DataGrid.id <$> DataGrid.columns _createDataGrid
  = fst <$> properties (_createEventData env v serviceEvent) /\
  NoDup (DataGrid.id <$> DataGrid.columns _createDataGrid) /\
  Forall (fun column =>
            is_Some (property (DataGrid.id column)
                       (_createEventData env v serviceEvent)))
    (DataGrid.columns _createDataGrid) /\
  DataGrid.striped _createDataGrid = true.
Proof.
  split; [reflexivity|]. split.
  - apply (bool_decide_unpack _). vm_compute. exact I.
  - split; [|reflexivity]. repeat constructor; eexists; reflexivity.
Qed.

End BackgroundServiceView.

(** ** The properties at the sample data *)

Example accept_active_origin :
  _acceptEvent Sample.env (Sample.view false) Sample.push_a = true.
Proof. reflexivity. Qed.

Example reject_other_origin :
  _acceptEvent Sample.env_b (Sample.view false) Sample.push_a = false.
Proof. reflexivity. Qed.

Example refresh_sample_origins :
  (EventData.origin ∘ data)
    <$> _dataGrid (_refreshView Sample.formatTimestamp Sample.env (Sample.view false))
  = ["https://a.com/"; "https://a.com/"].
Proof. reflexivity. Qed.

Lemma acceptEvent_spec_witness :
  _acceptEvent Sample.env (Sample.view false) Sample.sync_a = false /\
  _acceptEvent Sample.env (Sample.view true) Sample.push_b = true /\
  _acceptEvent Sample.env (Sample.view false) Sample.push_a = true.
Proof.
  split; [|split].
  - apply (proj1 (acceptEvent_spec Sample.env (Sample.view false) Sample.sync_a)).
    discriminate.
  - apply (proj1 (proj2 (acceptEvent_spec Sample.env (Sample.view true)
             Sample.push_b))); reflexivity.
  - apply (proj2 (proj2 (acceptEvent_spec Sample.env (Sample.view false)
             Sample.push_a))); [reflexivity | reflexivity | apply list_elem_of_here].
Defined.

Lemma acceptEvent_total_on_origins_witness :
  Protocol.service Sample.push_short = _serviceName (Sample.view false) /\
  String.length (Protocol.origin Sample.push_short) <= 1 /\
  _acceptEvent Sample.env (Sample.view false) Sample.push_short
  = JS.includes (securityOrigins Sample.env) "".
Proof.
  split; [reflexivity|]. split; [cbn; lia|].
  apply (acceptEvent_total_on_origins Sample.env (Sample.view false)
           Sample.push_short); [reflexivity | reflexivity | cbn; lia].
Defined.

Lemma swSource_spec_witness :
  EventData.swSource
    (_createEventData Sample.formatTimestamp Sample.env (Sample.view false)
       Sample.sync_a) = "" /\
  EventData.swSource
    (_createEventData Sample.formatTimestamp Sample.env (Sample.view false)
       Sample.push_b) = "" /\
  exists version, version ∈ [Sample.sw_a] /\
    EventData.swSource
      (_createEventData Sample.formatTimestamp Sample.env (Sample.view false)
         Sample.push_a)
    = drop_first (String.length (SDK.securityOrigin version))
        (SDK.scriptURL version).
Proof.
  split; [|split].
  - apply (proj1 (swSource_spec Sample.formatTimestamp Sample.env
             (Sample.view false) Sample.sync_a)). reflexivity.
  - apply (proj1 (proj2 (swSource_spec Sample.formatTimestamp Sample.env
             (Sample.view false) Sample.push_b)) {| SDK.versions := [] |});
      reflexivity.
  - apply (proj2 (proj2 (swSource_spec Sample.formatTimestamp Sample.env
             (Sample.view false) Sample.push_a)) {| SDK.versions := [Sample.sw_a] |});
      [reflexivity | discriminate].
Defined.

Lemma onOriginChanged_spec_witness :
  _onOriginChanged Sample.formatTimestamp Sample.env_b (Sample.view true)
  = Sample.view true /\
  _dataGrid (_onOriginChanged Sample.formatTimestamp Sample.env_b (Sample.view false))
  = imap (rowOf Sample.formatTimestamp Sample.env_b)
      (accepted Sample.env_b (Sample.view false)).
Proof.
  split.
  - apply (proj1 (onOriginChanged_spec Sample.formatTimestamp Sample.env_b
             (Sample.view true))). reflexivity.
  - apply (proj2 (onOriginChanged_spec Sample.formatTimestamp Sample.env_b
             (Sample.view false))). reflexivity.
Defined.

Lemma toggleRecording_spec_witness :
  UI.toggled (_recordButton
    (dispatch Sample.formatTimestamp Sample.env
       (RecordingStateChanged Sample.recording) (Sample.view false)))
  = true /\
  exists state,
    RecordingStateChanged Sample.recording = RecordingStateChanged state /\
    serviceName state = "push".
Proof.
  split.
  - apply (proj2 (proj2 (proj2 (toggleRecording_spec Sample.formatTimestamp
             Sample.env (Sample.view false))))). reflexivity.
  - destruct (proj1 (proj2 (proj2 (toggleRecording_spec Sample.formatTimestamp
               Sample.env (Sample.view false))))
               (RecordingStateChanged Sample.recording)) as (state & Hn & Hs & _);
      [discriminate|].
    exists state. split; [exact Hn | exact Hs].
Defined.

Lemma createPopover_other_trigger_witness :
  type Sample.mousemove <> "mousedown" /\
  _createPopover Sample.styleNodes
    {| data := data (rowOf Sample.formatTimestamp Sample.env 0 Sample.push_a);
       _eventMetadata := Protocol.eventMetadata Sample.push_a |}
    Sample.mousemove 0 = (None, 0).
Proof.
  split; [discriminate|].
  apply createPopover_other_trigger. discriminate.
Defined.

Lemma createPopover_content_witness :
  (exists request container,
     fst (_createPopover Sample.styleNodes
            (rowOf Sample.formatTimestamp Sample.env 0 Sample.push_a)
            Sample.mousedown 0) = Some request /\
     (forall popover,
        show request popover = (DOM.appendChild container popover, true)) /\
     DOM.textContent <$> metadataEntries container
     = ["Payload: hello"; "Tag: "]) /\
  (exists request container entry,
     fst (_createPopover Sample.styleNodes
            (rowOf Sample.formatTimestamp Sample.env 0 Sample.push_b)
            Sample.mousedown 0) = Some request /\
     metadataEntries container = [entry] /\
     DOM.textContent entry = "There is no metadata for this event").
Proof.
  split.
  - destruct (createPopover_content Sample.styleNodes
                (rowOf Sample.formatTimestamp Sample.env 0 Sample.push_a)
                Sample.mousedown 0)
      as (request & container & Hr & _ & Hshow & _ & Hmd).
    + repeat constructor.
    + reflexivity.
    + exists request, container. split; [exact Hr|]. split; [exact Hshow|].
      apply Hmd. discriminate.
  - destruct (createPopover_content Sample.styleNodes
                (rowOf Sample.formatTimestamp Sample.env 0 Sample.push_b)
                Sample.mousedown 0)
      as (request & container & Hr & _ & _ & Hnone & _).
    + repeat constructor.
    + reflexivity.
    + destruct (Hnone eq_refl) as (entry & He & Ht).
      exists request, container, entry.
      split; [exact Hr|]. split; [exact He | exact Ht].
Defined.

Lemma sequence_id_is_row_count_witness :
  _acceptEvent Sample.env (Sample.view false) Sample.push_a = true /\
  _dataGrid (_onEventReceived Sample.formatTimestamp Sample.env Sample.push_a
     (_clearView (_onEventReceived Sample.formatTimestamp Sample.env Sample.push_a
        (_clearView (Sample.view false)))))
  = [rowOf Sample.formatTimestamp Sample.env 0 Sample.push_a].
Proof.
  split; [reflexivity|].
  apply (sequence_id_is_row_count Sample.formatTimestamp Sample.env
           (Sample.view false) Sample.push_a). reflexivity.
Defined.

(** ** Sessions and edge cases at the sample data *)

Lemma run_rows_numbered_witness :
  rowIds (Sample.view false)
  = seq 0 (List.length (_dataGrid (Sample.view false))) /\
  List.length (_dataGrid (run Sample.formatTimestamp
    [ {| world := Sample.env; userChecked := true;
         notification := RefreshButtonClick |};
      {| world := Sample.env; userChecked := false;
         notification := BackgroundServiceEventReceived Sample.push_b |};
      {| world := Sample.env; userChecked := false;
         notification := BackgroundServiceEventReceived Sample.push_a |} ]
    (Sample.view false))) = 4 /\
  rowIds (run Sample.formatTimestamp
    [ {| world := Sample.env; userChecked := true;
         notification := RefreshButtonClick |};
      {| world := Sample.env; userChecked := false;
         notification := BackgroundServiceEventReceived Sample.push_b |};
      {| world := Sample.env; userChecked := false;
         notification := BackgroundServiceEventReceived Sample.push_a |} ]
    (Sample.view false))
  = seq 0 (List.length (_dataGrid (run Sample.formatTimestamp
    [ {| world := Sample.env; userChecked := true;
         notification := RefreshButtonClick |};
      {| world := Sample.env; userChecked := false;
         notification := BackgroundServiceEventReceived Sample.push_b |};
      {| world := Sample.env; userChecked := false;
         notification := BackgroundServiceEventReceived Sample.push_a |} ]
    (Sample.view false)))).
Proof.
  split; [reflexivity|]. split; [reflexivity|].
  apply run_rows_numbered. reflexivity.
Defined.

Lemma refreshView_ignores_history_witness :
  _dataGrid (_onEventReceived Sample.formatTimestamp Sample.env Sample.push_a
               (_toggleRecording (Sample.view false)))
  <> _dataGrid (Sample.view false) /\
  _dataGrid (_refreshView Sample.formatTimestamp Sample.env
    (_onEventReceived Sample.formatTimestamp Sample.env Sample.push_a
       (_toggleRecording (Sample.view false))))
  = _dataGrid (_refreshView Sample.formatTimestamp Sample.env (Sample.view false)).
Proof.
  split; [discriminate|].
  apply refreshView_ignores_history; reflexivity.
Defined.

Lemma onRecordingStateChanged_spec_witness :
  _onRecordingStateChanged {| serviceName := "sync"; isRecording := true |}
    (Sample.view false) = Sample.view false /\
  UI.toggled (_recordButton
    (_onRecordingStateChanged Sample.recording
       (_onRecordingStateChanged {| serviceName := "push"; isRecording := false |}
          (Sample.view false)))) = true.
Proof.
  split.
  - apply (proj1 (onRecordingStateChanged_spec
             {| serviceName := "sync"; isRecording := true |} Sample.recording
             (Sample.view false))). discriminate.
  - apply (proj2 (proj2 (proj2 (proj2 (onRecordingStateChanged_spec
             {| serviceName := "push"; isRecording := false |} Sample.recording
             (Sample.view false)))))). reflexivity.
Defined.

Lemma live_event_matches_refresh_witness :
  _dataGrid (_onEventReceived Sample.formatTimestamp
    {| getEvents := fun name => (getEvents Sample.env name ++ [Sample.push_a])%list;
       registrations := registrations Sample.env;
       securityOrigins := securityOrigins Sample.env |}
    Sample.push_a
    (_refreshView Sample.formatTimestamp Sample.env (Sample.view false)))
  = _dataGrid (_refreshView Sample.formatTimestamp
    {| getEvents := fun name => (getEvents Sample.env name ++ [Sample.push_a])%list;
       registrations := registrations Sample.env;
       securityOrigins := securityOrigins Sample.env |}
    (Sample.view false)).
Proof. apply live_event_matches_refresh; reflexivity. Defined.

Lemma origin_filter_only_hides_witness :
  List.length (_dataGrid (_refreshView Sample.formatTimestamp Sample.env
                 (Sample.view false))) = 2 /\
  List.length (_dataGrid (_refreshView Sample.formatTimestamp Sample.env
                 (Sample.view true))) = 3 /\
  accepted Sample.env (Sample.view false)
    `sublist_of` accepted Sample.env (Sample.view true).
Proof.
  split; [reflexivity|]. split; [reflexivity|].
  apply (origin_filter_only_hides Sample.formatTimestamp Sample.env
           (Sample.view false) (Sample.view true)); reflexivity.
Defined.

Lemma refreshView_shows_exactly_witness :
  exists i,
    _dataGrid (_refreshView Sample.formatTimestamp Sample.env (Sample.view false))
      !! i
    = Some (rowOf Sample.formatTimestamp Sample.env i Sample.push_a).
Proof.
  apply (proj2 (refreshView_shows_exactly Sample.formatTimestamp Sample.env
                  (Sample.view false))).
  - apply list_elem_of_here.
  - reflexivity.
  - right. apply list_elem_of_here.
Defined.

Lemma acceptEvent_trailing_character_witness :
  Protocol.origin Sample.push_a = "https://a.com" ++ String "/"%char "" /\
  (_acceptEvent Sample.env (Sample.view false) Sample.push_a = true <->
   "https://a.com" ∈ securityOrigins Sample.env).
Proof.
  split; [reflexivity|].
  apply (acceptEvent_trailing_character Sample.env (Sample.view false)
           Sample.push_a "https://a.com" "/"%char); reflexivity.
Defined.

Lemma swSource_relative_path_witness :
  EventData.swSource
    (_createEventData Sample.formatTimestamp Sample.env (Sample.view false)
       Sample.push_a) = "/sw.js" /\
  EventData.swSource
    (_createEventData Sample.formatTimestamp
       {| getEvents := getEvents Sample.env;
          registrations :=
            {[ "7" := {| SDK.versions :=
                 [ {| SDK.scriptURL := "sw.js";
                      SDK.securityOrigin := "https://a.com" |} ] |} ]};
          securityOrigins := securityOrigins Sample.env |}
       (Sample.view false) Sample.push_a) = "".
Proof.
  split.
  - apply (proj1 (swSource_relative_path Sample.formatTimestamp Sample.env
             (Sample.view false) Sample.push_a {| SDK.versions := [Sample.sw_a] |}
             Sample.sw_a eq_refl eq_refl)). reflexivity.
  - refine (proj2 (swSource_relative_path Sample.formatTimestamp
             {| getEvents := getEvents Sample.env;
                registrations :=
                  {[ "7" := {| SDK.versions :=
                       [ {| SDK.scriptURL := "sw.js";
                            SDK.securityOrigin := "https://a.com" |} ] |} ]};
                securityOrigins := securityOrigins Sample.env |}
             (Sample.view false) Sample.push_a
             {| SDK.versions :=
                  [ {| SDK.scriptURL := "sw.js";
                       SDK.securityOrigin := "https://a.com" |} ] |}
             {| SDK.scriptURL := "sw.js"; SDK.securityOrigin := "https://a.com" |}
             _ _) _).
    + vm_compute. reflexivity.
    + reflexivity.
    + cbn. lia.
Defined.

Lemma rejected_event_changes_nothing_witness :
  dispatch Sample.formatTimestamp Sample.env
    (BackgroundServiceEventReceived Sample.sync_a) (Sample.view true)
  = Sample.view true /\
  dispatch Sample.formatTimestamp Sample.env
    (BackgroundServiceEventReceived Sample.push_b) (Sample.view false)
  = Sample.view false.
Proof.
  split.
  - apply rejected_event_changes_nothing. left. discriminate.
  - apply rejected_event_changes_nothing. right. split; [reflexivity|].
    intros Hin. apply list_elem_of_singleton in Hin. discriminate Hin.
Defined.

Lemma createPopover_build_witness :
  exists request,
    _createPopover Sample.styleNodes
      (rowOf Sample.formatTimestamp Sample.env 0 Sample.push_a)
      Sample.mousedown 0 = (Some request, 7) /\
    box request = Sample.anchor.
Proof.
  destruct (createPopover_build Sample.styleNodes
              (rowOf Sample.formatTimestamp Sample.env 0 Sample.push_a)
              Sample.mousedown 0 eq_refl) as (request & Hr & Hbox & _).
  exists request. split; [exact Hr | exact Hbox].
Defined.
